(** * Profile-image handler of the CV editor (src/script/imageHandler.js)

    A shallow embedding of the module's two state variables, of the part of
    the browser it talks to (the document's elements, [alert], the console,
    the optional global [AutoUpdate], a [FileReader]) and of the jsPDF
    document it draws on, followed by the properties of its exported
    functions.

    Conventions of the model:
    - a JavaScript value is a [JsValue]; numbers are the integer-valued
      layout coordinates the editor passes around and are carried by [Z];
    - the module-level [let] variables and the document live in a [World];
      every function is a computation [JS A] that threads the world and
      ends either normally or with a thrown value;
    - what the module asks of its collaborators (an alert, a console line,
      a call of [AutoUpdate], a call of [doc.addImage], a file read) is
      appended to the world's [log], oldest first;
    - an element reference is the id it was looked up with: the document
      is a store from ids to elements, so that two look-ups of one id see
      one element. *)

From stdpp Require Import gmap strings list fin_maps.
From Stdlib Require Import ZArith.

Local Open Scope string_scope.
Local Open Scope list_scope.
Local Open Scope Z_scope.

(** ** JavaScript values *)

Inductive JsValue : Type :=
| undefined
| null
| JsBool (b : bool)
| JsNumber (n : Z)
| JsString (s : string)
| JsObject (ref : nat).

(** [ToBoolean]: what [if (v)], [!v], [!!v] and [v || w] look at. *)
Definition ToBoolean (v : JsValue) : bool :=
  match v with
  | undefined | null => false
  | JsBool b => b
  | JsNumber n => negb (n =? 0)%Z
  | JsString s => negb (String.eqb s "")
  | JsObject _ => true
  end.

(** [a || b] *)
Definition js_or (a b : JsValue) : JsValue :=
  if ToBoolean a then a else b.

(** A field is absent when it holds [null] or [undefined]. *)
Definition absent (v : JsValue) : bool :=
  match v with
  | undefined | null => true
  | _ => false
  end.

(** A saved CV object: property look-up of a missing key is [undefined]. *)
Definition get_prop (obj : gmap string JsValue) (key : string) : JsValue :=
  default undefined (obj !! key).

(** ** The browser side *)

Record Element : Type := mkElement {
  classList : gset string;
  src : JsValue;
  textContent : string;
  value : string
}.

Record File : Type := mkFile {
  file_name : string;
  file_type : string;
  file_size : Z
}.

(** The change event of the file input: [event.target.files]. *)
Record Event : Type := mkEvent {
  files : list File
}.

Inductive Effect : Type :=
| Alert (msg : string)
| ConsoleError (msg : string) (error : JsValue)
| CallAutoUpdate
| AddImage (imageData format : JsValue) (x y w h : Z)
| ReadAsDataURL (file : File).

(** A jsPDF document, as far as the module can tell documents apart: for
    each call of [addImage], whether it throws and what. *)
Record jsPDF : Type := mkDoc {
  addImage_throws : JsValue -> JsValue -> Z -> Z -> Z -> Z -> option JsValue
}.

Record World : Type := mkWorld {
  profileImageData : JsValue;
  profileImageType : JsValue;
  document : gmap string Element;
  AutoUpdate_is_function : bool;
  log : list Effect
}.

(** The module as loaded: both variables [null]. *)
Definition initial (doc : gmap string Element) (hook : bool) : World :=
  mkWorld null null doc hook [].

(** ** Computations *)

Inductive Completion (A : Type) : Type :=
| Normal (a : A)
| Throw (error : JsValue).
Arguments Normal {A} a.
Arguments Throw {A} error.

Definition JS (A : Type) : Type := World -> Completion A * World.

#[global] Instance JS_ret : MRet JS :=
  fun A (a : A) (w : World) => (Normal a, w).

#[global] Instance JS_bind : MBind JS :=
  fun A B (k : A -> JS B) (m : JS A) (w : World) =>
    match m w with
    | (Normal a, w') => k a w'
    | (Throw e, w') => (Throw e, w')
    end.

(** [try { body } catch (error) { handler }] *)
Definition try_catch {A} (body : JS A) (handler : JsValue -> JS A) : JS A :=
  fun w =>
    match body w with
    | (Normal a, w') => (Normal a, w')
    | (Throw e, w') => handler e w'
    end.

Definition exec {A} (m : JS A) (w : World) : World := (m w).2.
Definition result {A} (m : JS A) (w : World) : Completion A := (m w).1.

Definition read {A} (f : World -> A) : JS A :=
  fun w => (Normal (f w), w).

Definition update (f : World -> World) : JS unit :=
  fun w => (Normal tt, f w).

Definition set_profileImageData (v : JsValue) : JS unit :=
  update (fun w => mkWorld v (profileImageType w) (document w)
                           (AutoUpdate_is_function w) (log w)).

Definition set_profileImageType (v : JsValue) : JS unit :=
  update (fun w => mkWorld (profileImageData w) v (document w)
                           (AutoUpdate_is_function w) (log w)).

Definition set_document (d : gmap string Element) (w : World) : World :=
  mkWorld (profileImageData w) (profileImageType w) d
          (AutoUpdate_is_function w) (log w).

Definition emit (e : Effect) : JS unit :=
  update (fun w => mkWorld (profileImageData w) (profileImageType w)
                           (document w) (AutoUpdate_is_function w)
                           (log w ++ [e])).

(** [document.getElementById(id)]: the reference, or [null] ([None]). *)
Definition getElementById (id : string) : JS (option string) :=
  read (fun w => match document w !! id with
                 | Some _ => Some id
                 | None => None
                 end).

(** A write through a reference. *)
Definition on_element (ref : string) (f : Element -> Element) : JS unit :=
  update (fun w => set_document (alter f ref (document w)) w).

Definition add_class (c : string) (e : Element) : Element :=
  mkElement ({[ c ]} ∪ classList e) (src e) (textContent e) (value e).

Definition remove_class (c : string) (e : Element) : Element :=
  mkElement (classList e ∖ {[ c ]}) (src e) (textContent e) (value e).

Definition with_src (v : JsValue) (e : Element) : Element :=
  mkElement (classList e) v (textContent e) (value e).

Definition with_textContent (s : string) (e : Element) : Element :=
  mkElement (classList e) (src e) s (value e).

Definition with_value (s : string) (e : Element) : Element :=
  mkElement (classList e) (src e) (textContent e) s.

Definition skip : JS unit := mret tt.

(** [throw e] *)
Definition throw {A} (e : JsValue) : JS A := fun w => (Throw e, w).

Definition alert (msg : string) : JS unit := emit (Alert msg).

Definition console_error (msg : string) (error : JsValue) : JS unit :=
  emit (ConsoleError msg error).

(** [if (typeof AutoUpdate === 'function') AutoUpdate();] *)
Definition AutoUpdate_if_function : JS unit :=
  isf ← read AutoUpdate_is_function;
  if (isf : bool) then emit CallAutoUpdate else skip.

(** [doc.addImage(imageData, format, x, y, w, h)] *)
Definition addImage (doc : jsPDF) (imageData format : JsValue)
    (x y w h : Z) : JS unit :=
  emit (AddImage imageData format x y w h);;
  match addImage_throws doc imageData format x y w h with
  | Some e => throw e
  | None => skip
  end.

(** [if (ref) action(ref)] on an element reference. *)
Definition when_found (ref : option string) (action : string -> JS unit) :
    JS unit :=
  match ref with
  | Some r => action r
  | None => skip
  end.

(** ** The module *)

Definition showImagePreview (fileName : string) : JS unit :=
  preview ← getElementById "image-preview";
  previewImg ← getElementById "preview-img";
  imageName ← getElementById "image-name";
  removeBtn ← getElementById "remove-image";
  match preview, previewImg, imageName, removeBtn with
  | Some preview, Some previewImg, Some imageName, Some removeBtn =>
      data ← read profileImageData;
      on_element previewImg (with_src data);;
      on_element imageName (with_textContent fileName);;
      on_element preview (remove_class "hidden");;
      on_element removeBtn (remove_class "hidden")
  | _, _, _, _ => skip
  end.

(** The [reader.onload] callback that [handleImageUpload] installs for
    [file]; [result] is [e.target.result], the data URL read. *)
Definition reader_onload (file : File) (result : string) : JS unit :=
  set_profileImageData (JsString result);;
  set_profileImageType (JsString (file_type file));;
  showImagePreview (file_name file);;
  AutoUpdate_if_function.

Definition handleImageUpload (event : Event) : JS unit :=
  match files event !! 0%nat with
  | None => skip
  | Some file =>
      if negb (String.prefix "image/" (file_type file)) then
        alert "Please select a valid image file."
      else if (file_size file >? 5 * 1024 * 1024)%Z then
        alert "Image size must be less than 5MB."
      else
        emit (ReadAsDataURL file)
  end.

Definition removeProfileImage : JS unit :=
  set_profileImageData null;;
  set_profileImageType null;;
  preview ← getElementById "image-preview";
  removeBtn ← getElementById "remove-image";
  fileInput ← getElementById "profile-image";
  when_found preview (fun r => on_element r (add_class "hidden"));;
  when_found removeBtn (fun r => on_element r (add_class "hidden"));;
  when_found fileInput (fun r => on_element r (with_value ""));;
  AutoUpdate_if_function.

Record ImageInfo : Type := mkImageInfo {
  width : Z;
  height : Z;
  has_image : bool
}.

(** The two assignments at the head of the [try] block cannot throw and
    precede the call of [doc.addImage], so the locals hold 70 on both ways
    out of the block. *)
Definition addImageToPDF (doc : jsPDF) (marginLeft y : Z) : JS ImageInfo :=
  let imageWidth := 0 in
  let imageHeight := 0 in
  data ← read profileImageData;
  '(imageWidth, imageHeight) ←
    (if ToBoolean data then
       let imgSize := 70 in
       let imageWidth := imgSize in
       let imageHeight := imgSize in
       try_catch
         (data ← read profileImageData;
          type ← read profileImageType;
          addImage doc data (js_or type (JsString "JPEG"))
                   marginLeft (y - 28) imageWidth imageHeight)
         (fun error => console_error "Error adding image to PDF:" error);;
       mret (imageWidth, imageHeight)
     else mret (imageWidth, imageHeight));
  data ← read profileImageData;
  mret (mkImageInfo imageWidth imageHeight (ToBoolean data)).

Definition getImageBottomPosition (headerStartY imageHeight padding : Z) :
    JS Z :=
  data ← read profileImageData;
  if negb (ToBoolean data) then mret 0
  else mret ((headerStartY - 30) + imageHeight + padding).

Definition loadImageFromData (obj : gmap string JsValue) : JS unit :=
  if ToBoolean (get_prop obj "profileImage") then
    set_profileImageData (get_prop obj "profileImage");;
    set_profileImageType (get_prop obj "profileImageType");;
    showImagePreview "Loaded from save file"
  else
    removeProfileImage.

Definition getImageData : JS (gmap string JsValue) :=
  data ← read profileImageData;
  type ← read profileImageType;
  mret (<["profileImage" := data]> (<["profileImageType" := type]> ∅)).

Definition hasImage : JS bool :=
  data ← read profileImageData;
  mret (ToBoolean data).

Definition getImageDataString : JS JsValue := read profileImageData.

Definition getImageType : JS JsValue := read profileImageType.

(** ** Vocabulary of the properties *)

(** The world [w] after the module has asked for the effects [es]. *)
Definition logged (es : list Effect) (w : World) : World :=
  mkWorld (profileImageData w) (profileImageType w) (document w)
          (AutoUpdate_is_function w) (log w ++ es).

(** The pairing of the two fields: one is absent exactly when the other is. *)
Definition paired (w : World) : Prop :=
  absent (profileImageData w) = true ↔ absent (profileImageType w) = true.

(** An image is set: what [hasImage()] answers in [w]. *)
Definition image_set (w : World) : bool := ToBoolean (profileImageData w).

(** Both fields of [w'] are those of [w]. *)
Definition same_image (w' w : World) : Prop :=
  profileImageData w' = profileImageData w ∧
  profileImageType w' = profileImageType w.

(** The calls of [doc.addImage] in a log, in order, with their arguments. *)
Definition placement (e : Effect) :
    option (JsValue * JsValue * Z * Z * Z * Z) :=
  match e with
  | AddImage d f x y w h => Some (d, f, x, y, w, h)
  | _ => None
  end.

Definition placements (l : list Effect) :
    list (JsValue * JsValue * Z * Z * Z * Z) :=
  omap placement l.

(** What a user or a caller can see of the module's state: the two fields
    and the document. *)
Definition observable (w : World) : JsValue * JsValue * gmap string Element :=
  (profileImageData w, profileImageType w, document w).

Definition exists_in (d : gmap string Element) (id : string) : bool :=
  match d !! id with
  | Some _ => true
  | None => false
  end.

(** The element [id], if the document has it, carries the class [hidden]. *)
Definition hidden (d : gmap string Element) (id : string) : Prop :=
  ∀ e, d !! id = Some e → "hidden" ∈ classList e.

(** The state [removeProfileImage] aims at. *)
Definition cleared (w : World) : Prop :=
  profileImageData w = null ∧
  profileImageType w = null ∧
  hidden (document w) "image-preview" ∧
  hidden (document w) "remove-image" ∧
  (∀ e, document w !! "profile-image" = Some e → value e = "").

(** The world after [showImagePreview fileName]: all four elements are
    there and are written to, or nothing is. *)
Definition previewed (fileName : string) (w : World) : World :=
  if exists_in (document w) "image-preview"
     && exists_in (document w) "preview-img"
     && exists_in (document w) "image-name"
     && exists_in (document w) "remove-image"
  then set_document
         (alter (remove_class "hidden") "remove-image"
            (alter (remove_class "hidden") "image-preview"
               (alter (with_textContent fileName) "image-name"
                  (alter (with_src (profileImageData w)) "preview-img"
                     (document w))))) w
  else w.

(** Sample data for the closed instances below. *)
Definition sample_element : Element := mkElement ∅ null "" "photo.png".

Definition sample_document : gmap string Element :=
  <["image-preview" := sample_element]>
    (<["preview-img" := sample_element]>
       (<["image-name" := sample_element]>
          (<["remove-image" := sample_element]>
             (<["profile-image" := sample_element]> ∅)))).

Definition sample_png : JsValue := JsString "data:image/png;base64,iVBORw0KGgo=".

Definition world_with_image : World :=
  mkWorld sample_png (JsString "image/png") sample_document true [].

Definition world_without_image : World := initial sample_document true.

Definition world_with_empty_data : World :=
  mkWorld (JsString "") (JsString "image/png") sample_document true [].

Definition saved_without_type : gmap string JsValue :=
  {[ "profileImage" := sample_png ]}.

Definition saved_with_empty_image : gmap string JsValue :=
  <["profileImage" := JsString ""]> {[ "profileImageType" := JsString "image/png" ]}.

Definition ten_megabyte_png : File :=
  mkFile "huge.png" "image/png" (10 * 1024 * 1024).

Definition steady_doc : jsPDF := mkDoc (fun _ _ _ _ _ _ => None).

Definition failing_doc : jsPDF :=
  mkDoc (fun _ _ _ _ _ _ => Some (JsString "Invalid image")).

(** ** Wiring the controls *)

(** The two functions the module registers as event listeners. *)
Inductive Listener : Type :=
| HandleImageUpload
| RemoveProfileImage.

#[global] Instance Listener_eq_dec : EqDecision Listener.
Proof. solve_decision. Defined.

(** [element.addEventListener(type, listener)]. The listeners of the
    document's elements are kept by element id, in order of registration;
    as in the DOM, a listener already registered for the same type is not
    registered again. *)
Definition addEventListener (ref type : string) (l : Listener)
    (ls : gmap string (list (string * Listener))) :
    gmap string (list (string * Listener)) :=
  let registered := default [] (ls !! ref) in
  if bool_decide ((type, l) ∈ registered) then ls
  else <[ref := registered ++ [(type, l)]]> ls.

Definition initializeImageHandler
    (ls : gmap string (list (string * Listener))) :
    JS (gmap string (list (string * Listener))) :=
  imageInput ← getElementById "profile-image";
  let ls :=
    match imageInput with
    | Some imageInput =>
        addEventListener imageInput "change" HandleImageUpload ls
    | None => ls
    end in
  removeButton ← getElementById "remove-image";
  let ls :=
    match removeButton with
    | Some removeButton =>
        addEventListener removeButton "click" RemoveProfileImage ls
    | None => ls
    end in
  mret ls.




(** ** Runs of the module *)

(** One step of a page that uses the module: a call of one of its
    functions, the completion of a read that [handleImageUpload] started
    (with the data URL that [readAsDataURL] produced), or a change that the
    rest of the page makes to the document and to the global [AutoUpdate]. *)
Inductive step : World → World → Prop :=
| step_handleImageUpload event w :
    step w (exec (handleImageUpload event) w)
| step_reader_onload file data w :
    ReadAsDataURL file ∈ log w →
    String.prefix "data:" data = true →
    step w (exec (reader_onload file data) w)
| step_removeProfileImage w :
    step w (exec removeProfileImage w)
| step_addImageToPDF doc marginLeft y w :
    step w (exec (addImageToPDF doc marginLeft y) w)
| step_getImageBottomPosition headerStartY imageHeight padding w :
    step w (exec (getImageBottomPosition headerStartY imageHeight padding) w)
| step_loadImageFromData obj w :
    step w (exec (loadImageFromData obj) w)
| step_getImageData w :
    step w (exec getImageData w)
| step_hasImage w :
    step w (exec hasImage w)
| step_getImageDataString w :
    step w (exec getImageDataString w)
| step_getImageType w :
    step w (exec getImageType w)
| step_page d hook w :
    step w (mkWorld (profileImageData w) (profileImageType w) d hook (log w)).

Inductive reachable : World → Prop :=
| reachable_initial d hook : reachable (initial d hook)
| reachable_step w w' : reachable w → step w w' → reachable w'.

(** ** Further vocabulary *)

(** A file that [handleImageUpload] lets through. *)
Definition accepted (file : File) : bool :=
  String.prefix "image/" (file_type file)
  && (file_size file <=? 5 * 1024 * 1024)%Z.

Definition five_mebibyte_png : File :=
  mkFile "photo.png" "image/png" (5 * 1024 * 1024).

Definition saved_number : gmap string JsValue :=
  <["profileImage" := JsNumber 42]>
    {[ "profileImageType" := JsString "text/plain" ]}.

Definition saved_png : gmap string JsValue :=
  <["profileImage" := sample_png]>
    {[ "profileImageType" := JsString "image/png" ]}.

(** ** Closed forms of the computations *)

Ltac js_unfold :=
  unfold AutoUpdate_if_function, getElementById, when_found, on_element,
    alert, console_error, addImage, set_profileImageData,
    set_profileImageType, emit, skip, throw, try_catch, update, read,
    set_document;
  unfold mbind, JS_bind, mret, JS_ret;
  cbn -[lookup alter insert].

Lemma truthy_present v : ToBoolean v = true → absent v = false.
Proof. by destruct v. Qed.

Lemma logged_nil w : logged [] w = w.
Proof. destruct w. unfold logged. cbn. by rewrite app_nil_r. Qed.

Lemma placements_app l l' : placements (l ++ l') = placements l ++ placements l'.
Proof. apply omap_app. Qed.

Lemma removeProfileImage_run w :
  removeProfileImage w =
    (Normal tt,
     mkWorld null null
       (alter (with_value "") "profile-image"
          (alter (add_class "hidden") "remove-image"
             (alter (add_class "hidden") "image-preview" (document w))))
       (AutoUpdate_is_function w)
       (log w ++ if AutoUpdate_is_function w then [CallAutoUpdate] else [])).
Proof.
  unfold removeProfileImage. js_unfold.
  destruct (document w !! "image-preview") eqn:E1;
    destruct (document w !! "remove-image") eqn:E2;
    destruct (document w !! "profile-image") eqn:E3;
    destruct (AutoUpdate_is_function w); cbn -[lookup alter insert];
    rewrite ?app_nil_r; do 2 f_equal;
    apply map_eq; intros i; rewrite ?lookup_alter;
    repeat case_decide; subst; rewrite ?E1, ?E2, ?E3; done.
Qed.

Lemma showImagePreview_run fileName w :
  showImagePreview fileName w = (Normal tt, previewed fileName w).
Proof.
  unfold showImagePreview, previewed, exists_in. js_unfold.
  destruct (document w !! "image-preview");
    destruct (document w !! "preview-img");
    destruct (document w !! "image-name");
    destruct (document w !! "remove-image"); reflexivity.
Qed.

(** [showImagePreview] writes to the document only. *)
Lemma previewed_fields fileName w :
  same_image (previewed fileName w) w ∧
  AutoUpdate_is_function (previewed fileName w) = AutoUpdate_is_function w ∧
  log (previewed fileName w) = log w.
Proof. unfold previewed, same_image. by destruct (_ && _). Qed.

Lemma bind_run {A B} (m : JS A) (k : A → JS B) w a w' :
  m w = (Normal a, w') → (m ≫= k) w = k a w'.
Proof. intros H. unfold mbind, JS_bind. by rewrite H. Qed.

Lemma AutoUpdate_if_function_run w :
  AutoUpdate_if_function w =
    (Normal tt,
     logged (if AutoUpdate_is_function w then [CallAutoUpdate] else []) w).
Proof.
  unfold AutoUpdate_if_function. js_unfold.
  destruct (AutoUpdate_is_function w) eqn:E; [done|].
  by rewrite <- (logged_nil w) at 1.
Qed.

Lemma addImageToPDF_run doc marginLeft y w :
  addImageToPDF doc marginLeft y w =
    if ToBoolean (profileImageData w) then
      (Normal (mkImageInfo 70 70 true),
       logged
         (AddImage (profileImageData w)
                   (js_or (profileImageType w) (JsString "JPEG"))
                   marginLeft (y - 28) 70 70
            :: match addImage_throws doc (profileImageData w)
                       (js_or (profileImageType w) (JsString "JPEG"))
                       marginLeft (y - 28) 70 70 with
               | Some e => [ConsoleError "Error adding image to PDF:" e]
               | None => []
               end) w)
    else (Normal (mkImageInfo 0 0 false), w).
Proof.
  unfold addImageToPDF, logged. js_unfold.
  destruct (ToBoolean (profileImageData w)) eqn:E; cbn; [|by rewrite E].
  destruct (addImage_throws _ _ _ _ _ _ _); cbn; rewrite E;
    by rewrite <- ?app_assoc.
Qed.

Lemma getImageBottomPosition_run headerStartY imageHeight padding w :
  getImageBottomPosition headerStartY imageHeight padding w =
    (Normal (if ToBoolean (profileImageData w)
             then (headerStartY - 30) + imageHeight + padding else 0), w).
Proof.
  unfold getImageBottomPosition. js_unfold.
  by destruct (ToBoolean (profileImageData w)).
Qed.

Ltac fields :=
  cbn [profileImageData profileImageType document AutoUpdate_is_function log
       fst snd].

Lemma reader_onload_run file data w :
  reader_onload file data w =
    (Normal tt,
     logged (if AutoUpdate_is_function w then [CallAutoUpdate] else [])
       (previewed (file_name file)
          (mkWorld (JsString data) (JsString (file_type file)) (document w)
                   (AutoUpdate_is_function w) (log w)))).
Proof.
  unfold reader_onload.
  erewrite bind_run by reflexivity.
  erewrite bind_run by reflexivity.
  erewrite bind_run by apply showImagePreview_run.
  rewrite AutoUpdate_if_function_run. fields.
  by destruct (previewed_fields (file_name file)
    (mkWorld (JsString data) (JsString (file_type file)) (document w)
             (AutoUpdate_is_function w) (log w))) as (_ & -> & _).
Qed.

Lemma loadImageFromData_run obj w :
  loadImageFromData obj w =
    if ToBoolean (get_prop obj "profileImage") then
      (Normal tt,
       previewed "Loaded from save file"
         (mkWorld (get_prop obj "profileImage")
                  (get_prop obj "profileImageType") (document w)
                  (AutoUpdate_is_function w) (log w)))
    else removeProfileImage w.
Proof.
  unfold loadImageFromData.
  destruct (ToBoolean (get_prop obj "profileImage")); [|done].
  erewrite bind_run by reflexivity.
  erewrite bind_run by reflexivity.
  fields. apply showImagePreview_run.
Qed.

Lemma removeProfileImage_cleared w : cleared (exec removeProfileImage w).
Proof.
  unfold exec. rewrite removeProfileImage_run. unfold cleared, hidden.
  fields. repeat split; intros e.
  - rewrite lookup_alter_ne, lookup_alter_ne, lookup_alter_eq by done.
    destruct (_ !! _); [|done]. intros ?; simplify_eq. cbn. set_solver.
  - rewrite lookup_alter_ne, lookup_alter_eq by done.
    destruct (_ !! _); [|done]. intros ?; simplify_eq. cbn. set_solver.
  - rewrite lookup_alter_eq.
    destruct (_ !! _); [|done]. by intros [= <-].
Qed.

Lemma add_class_twice c e : add_class c (add_class c e) = add_class c e.
Proof.
  destruct e. unfold add_class. cbn. f_equal.
  by rewrite (assoc_L (∪)), union_idemp_L.
Qed.

Lemma removeProfileImage_twice w :
  observable (exec removeProfileImage (exec removeProfileImage w)) =
    observable (exec removeProfileImage w).
Proof.
  unfold exec, observable. rewrite !removeProfileImage_run.
  fields. f_equal.
  apply map_eq; intros i. rewrite !lookup_alter.
  repeat case_decide; subst; try done;
    destruct (document w !! _); try done;
    cbn; by rewrite ?add_class_twice.
Qed.

Lemma hasImage_run w : hasImage w = (Normal (image_set w), w).
Proof. reflexivity. Qed.

Lemma getImageData_run w :
  getImageData w =
    (Normal (<["profileImage" := profileImageData w]>
               (<["profileImageType" := profileImageType w]> ∅)), w).
Proof. reflexivity. Qed.

Lemma handleImageUpload_same_image event w :
  result (handleImageUpload event) w = Normal tt ∧
  same_image (exec (handleImageUpload event) w) w.
Proof.
  unfold result, exec, handleImageUpload, same_image.
  destruct (files event !! 0%nat) as [file|]; [|done].
  destruct (negb _); [done|]. by destruct (_ >? _).
Qed.

Lemma addImageToPDF_same_image doc marginLeft y w :
  same_image (exec (addImageToPDF doc marginLeft y) w) w.
Proof.
  unfold exec. rewrite addImageToPDF_run.
  by destruct (ToBoolean (profileImageData w)).
Qed.

Lemma logged_previewed_fields es fileName w :
  same_image (logged es (previewed fileName w)) w.
Proof. apply previewed_fields. Qed.

Lemma reader_onload_fields file data w :
  profileImageData (exec (reader_onload file data) w) = JsString data ∧
  profileImageType (exec (reader_onload file data) w) =
    JsString (file_type file).
Proof.
  unfold exec. rewrite reader_onload_run. apply logged_previewed_fields.
Qed.

Lemma loadImageFromData_fields obj w :
  ToBoolean (get_prop obj "profileImage") = true →
  result (loadImageFromData obj) w = Normal tt ∧
  profileImageData (exec (loadImageFromData obj) w) =
    get_prop obj "profileImage" ∧
  profileImageType (exec (loadImageFromData obj) w) =
    get_prop obj "profileImageType".
Proof.
  intros E. unfold result, exec. rewrite loadImageFromData_run, E.
  split; [done|]. apply previewed_fields.
Qed.

Lemma paired_iff d t w :
  profileImageData w = d → profileImageType w = t →
  paired w ↔ absent d = absent t.
Proof.
  intros <- <-. unfold paired.
  destruct (absent (profileImageData w)), (absent (profileImageType w));
    intuition congruence.
Qed.

Lemma loadImageFromData_falsy obj w :
  ToBoolean (get_prop obj "profileImage") = false →
  loadImageFromData obj w = removeProfileImage w.
Proof. intros H. by rewrite loadImageFromData_run, H. Qed.

(** ** The pairing of data and media type *)

(** C1, as the specification states it, fails: loading a saved object that
    has a [profileImage] and no [profileImageType] leaves the data set and
    the media type [undefined]. *)
Lemma pairing_broken_by_load_without_type :
  profileImageData
    (exec (loadImageFromData saved_without_type) world_without_image)
    = sample_png ∧
  profileImageType
    (exec (loadImageFromData saved_without_type) world_without_image)
    = undefined ∧
  ¬ paired (exec (loadImageFromData saved_without_type) world_without_image).
Proof.
  split; [reflexivity|]. split; [reflexivity|].
  unfold paired. intros [_ H].
  assert (Hd : absent (profileImageData
    (exec (loadImageFromData saved_without_type) world_without_image))
    = false) by reflexivity.
  rewrite H in Hd; [discriminate | reflexivity].
Qed.

(** C1 (amended): in every world, the two fields are paired after the
    completion of an upload and after [removeProfileImage];
    [handleImageUpload] itself, [addImageToPDF], [getImageBottomPosition],
    [getImageData] and the three accessors leave both fields as they were;
    after [loadImageFromData obj] the fields are paired exactly when
    [obj.profileImage] is falsy (both are then cleared) or
    [obj.profileImageType] is neither [null] nor [undefined]. *)
Theorem pairing_after_operations (w : World) :
  (∀ file data, paired (exec (reader_onload file data) w)) ∧
  paired (exec removeProfileImage w) ∧
  (∀ obj,
     paired (exec (loadImageFromData obj) w) ↔
       ToBoolean (get_prop obj "profileImage") = false ∨
       absent (get_prop obj "profileImageType") = false) ∧
  (∀ event, same_image (exec (handleImageUpload event) w) w) ∧
  (∀ doc marginLeft y,
     same_image (exec (addImageToPDF doc marginLeft y) w) w) ∧
  (∀ headerStartY imageHeight padding,
     exec (getImageBottomPosition headerStartY imageHeight padding) w = w) ∧
  exec getImageData w = w ∧
  exec hasImage w = w ∧
  exec getImageDataString w = w ∧
  exec getImageType w = w.
Proof.
  split; [|split; [|split; [|split; [|split; [|split]]]]].
  - intros file data.
    destruct (reader_onload_fields file data w) as [Hd Ht].
    by apply (paired_iff _ _ _ Hd Ht).
  - destruct (removeProfileImage_cleared w) as (Hd & Ht & _).
    by apply (paired_iff _ _ _ Hd Ht).
  - intros obj.
    destruct (ToBoolean (get_prop obj "profileImage")) eqn:E.
    + destruct (loadImageFromData_fields obj w E) as (_ & Hd & Ht).
      rewrite (paired_iff _ _ _ Hd Ht), (truthy_present _ E).
      split; [intros <-; by right | by intros [?| ->]].
    + unfold exec. rewrite loadImageFromData_run, E.
      destruct (removeProfileImage_cleared w) as (Hd & Ht & _).
      rewrite (paired_iff _ _ _ Hd Ht). split; [by left | done].
  - intros event. apply handleImageUpload_same_image.
  - intros doc marginLeft y. apply addImageToPDF_same_image.
  - intros. unfold exec. by rewrite getImageBottomPosition_run.
  - done.
Qed.

(** ** Drawing the image *)

(** C2: when an image is set, [addImageToPDF doc marginLeft y] returns
    [{width: 70, height: 70, hasImage: true}] and adds exactly one call of
    [doc.addImage] to those already made, with the stored data at
    [(marginLeft, y - 28)], 70 wide and 70 high; the format passed is the
    stored media type when there is one (a truthy value, as [||] tests it:
    any non-empty string) and ["JPEG"] when there is none. *)
Theorem addImageToPDF_places_once doc marginLeft y w :
  image_set w = true →
  ∃ format,
    result (addImageToPDF doc marginLeft y) w
      = Normal (mkImageInfo 70 70 true) ∧
    placements (log (exec (addImageToPDF doc marginLeft y) w))
      = placements (log w)
          ++ [(profileImageData w, format, marginLeft, y - 28, 70, 70)] ∧
    (ToBoolean (profileImageType w) = true → format = profileImageType w) ∧
    (ToBoolean (profileImageType w) = false → format = JsString "JPEG") ∧
    (∀ s, profileImageType w = JsString s → s ≠ "" → format = JsString s) ∧
    (absent (profileImageType w) = true → format = JsString "JPEG").
Proof.
  unfold image_set. intros E.
  exists (js_or (profileImageType w) (JsString "JPEG")).
  unfold result, exec. rewrite addImageToPDF_run, E.
  split; [done|]. split.
  - cbn [snd logged log]. rewrite placements_app. f_equal.
    by destruct (addImage_throws _ _ _ _ _ _ _).
  - unfold js_or. repeat split.
    + by intros ->.
    + by intros ->.
    + intros s -> Hs. cbn. by destruct s.
    + by destruct (profileImageType w).
Qed.

Lemma addImageToPDF_places_once_witness :
  image_set world_with_image = true ∧
  result (addImageToPDF steady_doc 10 100) world_with_image
    = Normal (mkImageInfo 70 70 true) ∧
  placements (log (exec (addImageToPDF steady_doc 10 100) world_with_image))
    = [(sample_png, JsString "image/png", 10, 72, 70, 70)].
Proof.
  split; [reflexivity|].
  destruct (addImageToPDF_places_once steady_doc 10 100 world_with_image
              eq_refl) as (format & Hr & Hp & Ht & _).
  split; [exact Hr|].
  rewrite Hp, (Ht eq_refl). reflexivity.
Defined.

(** C5: when an image is set and [doc.addImage] throws [error] on the call
    made, [addImageToPDF] completes normally with
    [{width: 70, height: 70, hasImage: true}]; the call and then one
    [console.error] line carrying [error] are all it adds to the log. *)
Theorem addImageToPDF_swallows_failure doc marginLeft y w error :
  image_set w = true →
  addImage_throws doc (profileImageData w)
    (js_or (profileImageType w) (JsString "JPEG"))
    marginLeft (y - 28) 70 70 = Some error →
  addImageToPDF doc marginLeft y w =
    (Normal (mkImageInfo 70 70 true),
     logged [AddImage (profileImageData w)
               (js_or (profileImageType w) (JsString "JPEG"))
               marginLeft (y - 28) 70 70;
             ConsoleError "Error adding image to PDF:" error] w).
Proof.
  unfold image_set. intros E H. by rewrite addImageToPDF_run, E, H.
Qed.

Lemma addImageToPDF_swallows_failure_witness :
  image_set world_with_image = true ∧
  addImage_throws failing_doc sample_png (JsString "image/png") 10 72 70 70
    = Some (JsString "Invalid image") ∧
  addImageToPDF failing_doc 10 100 world_with_image =
    (Normal (mkImageInfo 70 70 true),
     logged [AddImage sample_png (JsString "image/png") 10 72 70 70;
             ConsoleError "Error adding image to PDF:"
               (JsString "Invalid image")] world_with_image).
Proof.
  split; [reflexivity|]. split; [reflexivity|].
  apply (addImageToPDF_swallows_failure failing_doc 10 100 world_with_image
           (JsString "Invalid image")); reflexivity.
Defined.

(** C7: when no image is set, [addImageToPDF] returns
    [{width: 0, height: 0, hasImage: false}] and leaves the world, its log
    of renderer calls included, as it was. *)
Theorem addImageToPDF_without_image doc marginLeft y w :
  image_set w = false →
  addImageToPDF doc marginLeft y w = (Normal (mkImageInfo 0 0 false), w) ∧
  placements (log (exec (addImageToPDF doc marginLeft y) w))
    = placements (log w).
Proof.
  unfold image_set, exec. intros E. by rewrite addImageToPDF_run, E.
Qed.

Lemma addImageToPDF_without_image_witness :
  image_set world_without_image = false ∧
  addImageToPDF failing_doc 10 100 world_without_image
    = (Normal (mkImageInfo 0 0 false), world_without_image) ∧
  placements (log (exec (addImageToPDF failing_doc 10 100)
                        world_without_image)) = [].
Proof.
  split; [reflexivity|].
  apply (addImageToPDF_without_image failing_doc 10 100 world_without_image).
  reflexivity.
Defined.

(** C6: [getImageBottomPosition] changes nothing in the world; it returns 0
    when no image is set, whatever its arguments, and
    [(headerStartY - 30) + imageHeight + padding] when one is. *)
Theorem getImageBottomPosition_spec headerStartY imageHeight padding w :
  exec (getImageBottomPosition headerStartY imageHeight padding) w = w ∧
  (image_set w = false →
   result (getImageBottomPosition headerStartY imageHeight padding) w
     = Normal 0) ∧
  (image_set w = true →
   result (getImageBottomPosition headerStartY imageHeight padding) w
     = Normal ((headerStartY - 30) + imageHeight + padding)).
Proof.
  unfold image_set, exec, result. rewrite getImageBottomPosition_run.
  split; [done|]. by split; intros ->.
Qed.

Lemma getImageBottomPosition_spec_witness :
  image_set world_with_image = true ∧
  result (getImageBottomPosition 100 70 5) world_with_image = Normal 145 ∧
  image_set world_without_image = false ∧
  result (getImageBottomPosition 100 70 5) world_without_image = Normal 0.
Proof.
  split; [reflexivity|]. split.
  - apply (getImageBottomPosition_spec 100 70 5 world_with_image).
    reflexivity.
  - split; [reflexivity|].
    apply (getImageBottomPosition_spec 100 70 5 world_without_image).
    reflexivity.
Defined.

(** ** Uploading *)

(** C3: for a selected file whose type does not start with [image/], or
    whose size is above 5 * 1024 * 1024 bytes, [handleImageUpload] shows one
    alert, starts no read, and leaves both fields, the document included, as
    they were. *)
Theorem handleImageUpload_rejects file rest w :
  String.prefix "image/" (file_type file) = false ∨
  file_size file > 5 * 1024 * 1024 →
  handleImageUpload (mkEvent (file :: rest)) w =
    (Normal tt,
     logged [Alert (if String.prefix "image/" (file_type file)
                    then "Image size must be less than 5MB."
                    else "Please select a valid image file.")] w) ∧
  same_image (exec (handleImageUpload (mkEvent (file :: rest))) w) w.
Proof.
  intros H. split; [|apply handleImageUpload_same_image].
  unfold handleImageUpload. cbn [files lookup list_lookup].
  destruct (String.prefix "image/" (file_type file)); [|done].
  destruct H as [|H]; [done|].
  apply Z.gtb_gt in H. cbn [negb]. by rewrite H.
Qed.

Lemma handleImageUpload_rejects_witness :
  file_size ten_megabyte_png > 5 * 1024 * 1024 ∧
  handleImageUpload (mkEvent [ten_megabyte_png]) world_with_image =
    (Normal tt,
     logged [Alert "Image size must be less than 5MB."] world_with_image) ∧
  profileImageData
    (exec (handleImageUpload (mkEvent [ten_megabyte_png])) world_with_image)
    = sample_png.
Proof.
  split; [reflexivity|].
  destruct (handleImageUpload_rejects ten_megabyte_png [] world_with_image
              (or_intror eq_refl)) as [Hrun [Hd _]].
  split; [exact Hrun | exact Hd].
Defined.

(** ** Saving, loading and removing *)

Lemma get_prop_saved d t :
  get_prop (<["profileImage" := d]> (<["profileImageType" := t]> ∅))
           "profileImage" = d ∧
  get_prop (<["profileImage" := d]> (<["profileImageType" := t]> ∅))
           "profileImageType" = t.
Proof.
  unfold get_prop. split.
  - by rewrite lookup_insert_eq.
  - by rewrite lookup_insert_ne, lookup_insert_eq.
Qed.

(** C4: when an image is set in [w], [getImageData] changes nothing, and
    [loadImageFromData] on the object it returns, run in any world [w']
    (a later session, a cleared module, a module holding another image),
    completes normally and leaves there the data and the media type that
    [w] had at the export. *)
Theorem load_export_roundtrip w w' :
  image_set w = true →
  ∃ saved,
    getImageData w = (Normal saved, w) ∧
    result (loadImageFromData saved) w' = Normal tt ∧
    profileImageData (exec (loadImageFromData saved) w')
      = profileImageData w ∧
    profileImageType (exec (loadImageFromData saved) w')
      = profileImageType w.
Proof.
  unfold image_set. intros E. eexists. split; [apply getImageData_run|].
  destruct (get_prop_saved (profileImageData w) (profileImageType w))
    as [Hd Ht].
  rewrite <- Hd in E.
  destruct (loadImageFromData_fields _ w' E) as (Hr & Hd' & Ht').
  by rewrite Hd', Ht', Hd, Ht.
Qed.

Lemma load_export_roundtrip_witness :
  image_set world_with_image = true ∧
  image_set world_without_image = false ∧
  ∃ saved,
    getImageData world_with_image = (Normal saved, world_with_image) ∧
    profileImageData (exec (loadImageFromData saved) world_without_image)
      = sample_png ∧
    profileImageType (exec (loadImageFromData saved) world_without_image)
      = JsString "image/png".
Proof.
  split; [reflexivity|]. split; [reflexivity|].
  destruct (load_export_roundtrip world_with_image world_without_image
              eq_refl) as (saved & Hs & _ & Hd & Ht).
  exists saved. split; [exact Hs|]. split; [exact Hd | exact Ht].
Defined.

(** C8: from every world, [removeProfileImage] completes normally and
    leaves both fields [null], the preview and the remove button hidden and
    the file input's value empty (each where the element exists); a second
    call in a row leaves the fields and the document exactly as the first
    did. *)
Theorem removeProfileImage_idempotent w :
  result removeProfileImage w = Normal tt ∧
  cleared (exec removeProfileImage w) ∧
  result removeProfileImage (exec removeProfileImage w) = Normal tt ∧
  observable (exec removeProfileImage (exec removeProfileImage w))
    = observable (exec removeProfileImage w).
Proof.
  split; [unfold result; by rewrite removeProfileImage_run|].
  split; [apply removeProfileImage_cleared|].
  split; [unfold result; by rewrite removeProfileImage_run|].
  apply removeProfileImage_twice.
Qed.

(** C9: on a saved object without a [profileImage] key,
    [loadImageFromData] is [removeProfileImage]: same completion, same
    world, same effects; both fields end up [null] and the controls
    hidden. *)
Theorem loadImageFromData_without_key obj w :
  obj !! "profileImage" = None →
  loadImageFromData obj w = removeProfileImage w ∧
  cleared (exec (loadImageFromData obj) w).
Proof.
  intros H.
  assert (E : loadImageFromData obj w = removeProfileImage w).
  { apply loadImageFromData_falsy. unfold get_prop. by rewrite H. }
  split; [exact E|]. unfold exec. rewrite E.
  apply removeProfileImage_cleared.
Qed.

Lemma loadImageFromData_without_key_witness :
  image_set world_with_image = true ∧
  (∅ : gmap string JsValue) !! "profileImage" = None ∧
  loadImageFromData ∅ world_with_image = removeProfileImage world_with_image ∧
  profileImageData (exec (loadImageFromData ∅) world_with_image) = null ∧
  profileImageType (exec (loadImageFromData ∅) world_with_image) = null.
Proof.
  split; [reflexivity|]. split; [reflexivity|].
  destruct (loadImageFromData_without_key ∅ world_with_image)
    as (E & Hd & Ht & _); [reflexivity|].
  split; [exact E|]. split; [exact Hd | exact Ht].
Defined.

(** C10: presence of the image is the truthiness of the data. With the
    empty string stored, [hasImage] answers [false], [addImageToPDF]
    returns [{width: 0, height: 0, hasImage: false}] and
    [getImageBottomPosition] returns 0, each leaving the world (and so the
    renderer) untouched. Loading a saved object whose [profileImage] is the
    empty string takes the clearing branch, and the three functions answer
    the same afterwards. *)
Theorem presence_is_truthiness
    w obj doc marginLeft y headerStartY imageHeight padding :
  (profileImageData w = JsString "" →
   hasImage w = (Normal false, w) ∧
   addImageToPDF doc marginLeft y w = (Normal (mkImageInfo 0 0 false), w) ∧
   getImageBottomPosition headerStartY imageHeight padding w
     = (Normal 0, w)) ∧
  (obj !! "profileImage" = Some (JsString "") →
   loadImageFromData obj w = removeProfileImage w ∧
   hasImage (exec (loadImageFromData obj) w)
     = (Normal false, exec (loadImageFromData obj) w) ∧
   addImageToPDF doc marginLeft y (exec (loadImageFromData obj) w)
     = (Normal (mkImageInfo 0 0 false), exec (loadImageFromData obj) w) ∧
   getImageBottomPosition headerStartY imageHeight padding
       (exec (loadImageFromData obj) w)
     = (Normal 0, exec (loadImageFromData obj) w)).
Proof.
  assert (falsy : ∀ w', image_set w' = false →
    hasImage w' = (Normal false, w') ∧
    addImageToPDF doc marginLeft y w' = (Normal (mkImageInfo 0 0 false), w') ∧
    getImageBottomPosition headerStartY imageHeight padding w'
      = (Normal 0, w')).
  { unfold image_set. intros w' E.
    by rewrite hasImage_run, addImageToPDF_run,
      getImageBottomPosition_run; unfold image_set; rewrite E. }
  split.
  - intros H. apply falsy. unfold image_set. by rewrite H.
  - intros H.
    assert (E : loadImageFromData obj w = removeProfileImage w).
    { apply loadImageFromData_falsy. unfold get_prop. by rewrite H. }
    split; [exact E|]. apply falsy. unfold image_set, exec. rewrite E.
    by rewrite removeProfileImage_run.
Qed.

Lemma presence_is_truthiness_witness :
  profileImageData world_with_empty_data = JsString "" ∧
  hasImage world_with_empty_data = (Normal false, world_with_empty_data) ∧
  addImageToPDF steady_doc 10 100 world_with_empty_data
    = (Normal (mkImageInfo 0 0 false), world_with_empty_data) ∧
  getImageBottomPosition 100 70 5 world_with_empty_data
    = (Normal 0, world_with_empty_data) ∧
  saved_with_empty_image !! "profileImage" = Some (JsString "") ∧
  hasImage (exec (loadImageFromData saved_with_empty_image) world_with_image)
    = (Normal false,
       exec (loadImageFromData saved_with_empty_image) world_with_image).
Proof.
  destruct (presence_is_truthiness world_with_empty_data
              saved_with_empty_image steady_doc 10 100 100 70 5)
    as [Hempty _].
  destruct (presence_is_truthiness world_with_image
              saved_with_empty_image steady_doc 10 100 100 70 5)
    as [_ Hload].
  split; [reflexivity|].
  destruct (Hempty eq_refl) as (H1 & H2 & H3).
  split; [exact H1|]. split; [exact H2|]. split; [exact H3|].
  split; [reflexivity|].
  destruct Hload as (_ & H4 & _); [reflexivity | exact H4].
Defined.

(** ** Further properties of uploading *)

Lemma logged_inv es es' w : logged es w = logged es' w → es = es'.
Proof.
  unfold logged. intros H.
  assert (Hl : log w ++ es = log w ++ es') by congruence.
  by apply app_inv_head in Hl.
Qed.

Lemma image_prefix_nonempty s : String.prefix "image/" s = true → s ≠ "".
Proof. by intros H ->. Qed.

Lemma handleImageUpload_run event w :
  handleImageUpload event w =
    (Normal tt,
     match files event !! 0%nat with
     | None => w
     | Some file =>
         if String.prefix "image/" (file_type file) then
           if (file_size file <=? 5 * 1024 * 1024)%Z
           then logged [ReadAsDataURL file] w
           else logged [Alert "Image size must be less than 5MB."] w
         else logged [Alert "Please select a valid image file."] w
     end).
Proof.
  unfold handleImageUpload.
  destruct (files event !! 0%nat) as [file|]; [|done].
  destruct (String.prefix "image/" (file_type file)); [|done].
  cbn [negb]. rewrite Z.gtb_ltb, Z.ltb_antisym.
  by destruct (file_size file <=? 5 * 1024 * 1024)%Z.
Qed.

(** X1: with no file selected [handleImageUpload] changes nothing at all;
    it starts the read of [file] exactly when [file] is the first selected
    file, its type starts with [image/] and its size is at most
    5 * 1024 * 1024 bytes (the bound is inclusive; further selected files
    are never looked at). *)
Theorem handleImageUpload_starts_read (event : Event) (file : File) w :
  (files event !! 0%nat = None → handleImageUpload event w = (Normal tt, w)) ∧
  (exec (handleImageUpload event) w = logged [ReadAsDataURL file] w ↔
     files event !! 0%nat = Some file ∧ accepted file = true).
Proof.
  unfold exec, accepted. rewrite handleImageUpload_run. cbn [snd]. split.
  - by intros ->.
  - destruct (files event !! 0%nat) as [f|] eqn:Ef.
    + destruct (String.prefix "image/" (file_type f)) eqn:Ep;
        [destruct (file_size f <=? 5 * 1024 * 1024)%Z eqn:Es|].
      * split.
        -- intros H. apply logged_inv in H. simplify_eq. by rewrite Ep, Es.
        -- intros [? _]. by simplify_eq.
      * split.
        -- intros H. apply logged_inv in H. discriminate.
        -- intros [? H]. simplify_eq. by rewrite Ep, Es in H.
      * split.
        -- intros H. apply logged_inv in H. discriminate.
        -- intros [? H]. simplify_eq. by rewrite Ep in H.
    + split; [|by intros [? _]].
      intros H. rewrite <- (logged_nil w) in H at 1.
      apply logged_inv in H. discriminate.
Qed.

Lemma handleImageUpload_starts_read_witness :
  files (mkEvent [five_mebibyte_png; ten_megabyte_png]) !! 0%nat
    = Some five_mebibyte_png ∧
  accepted five_mebibyte_png = true ∧
  exec (handleImageUpload (mkEvent [five_mebibyte_png; ten_megabyte_png]))
       world_without_image
    = logged [ReadAsDataURL five_mebibyte_png] world_without_image ∧
  handleImageUpload (mkEvent []) world_with_image
    = (Normal tt, world_with_image).
Proof.
  split; [reflexivity|]. split; [reflexivity|]. split.
  - apply (handleImageUpload_starts_read
             (mkEvent [five_mebibyte_png; ten_megabyte_png])
             five_mebibyte_png world_without_image).
    split; reflexivity.
  - apply (handleImageUpload_starts_read (mkEvent []) five_mebibyte_png
             world_with_image).
    reflexivity.
Defined.

Lemma placements_logged_hook (b : bool) w :
  placements (log (logged (if b then [CallAutoUpdate] else []) w))
    = placements (log w).
Proof.
  unfold logged. cbn [log]. rewrite placements_app.
  destruct b; cbn; by rewrite app_nil_r.
Qed.

Lemma reader_onload_log file data w :
  log (exec (reader_onload file data) w) =
    log w ++ (if AutoUpdate_is_function w then [CallAutoUpdate] else []).
Proof.
  unfold exec. rewrite reader_onload_run. cbn [snd logged log].
  by destruct (previewed_fields (file_name file)
    (mkWorld (JsString data) (JsString (file_type file)) (document w)
             (AutoUpdate_is_function w) (log w))) as (_ & _ & ->).
Qed.

Lemma handleImageUpload_placements event w :
  placements (log (exec (handleImageUpload event) w)) = placements (log w).
Proof.
  unfold exec. rewrite handleImageUpload_run. cbn [snd].
  destruct (files event !! 0%nat) as [file|]; [|done].
  destruct (String.prefix _ _); [destruct (_ <=? _)%Z|];
    cbn [logged log]; rewrite placements_app; cbn; by rewrite app_nil_r.
Qed.

Lemma reader_onload_placements file data w :
  placements (log (exec (reader_onload file data) w)) = placements (log w).
Proof.
  rewrite reader_onload_log, placements_app.
  destruct (AutoUpdate_is_function w); cbn; by rewrite app_nil_r.
Qed.

Lemma addImageToPDF_placements doc marginLeft y w :
  image_set w = true →
  placements (log (exec (addImageToPDF doc marginLeft y) w)) =
    placements (log w)
      ++ [(profileImageData w, js_or (profileImageType w) (JsString "JPEG"),
           marginLeft, y - 28, 70, 70)].
Proof.
  unfold image_set, exec. intros E. rewrite addImageToPDF_run, E.
  cbn [snd logged log]. rewrite placements_app. f_equal.
  by destruct (addImage_throws _ _ _ _ _ _ _).
Qed.

(** X2: when [handleImageUpload] has let a file through and its read
    completes with non-empty data, [hasImage] answers [true], the stored
    type is the file's declared type, the two fields are paired, and
    [addImageToPDF] draws the data with that type as format: the ["JPEG"]
    fallback is never used for an uploaded image. *)
Theorem uploaded_image_is_drawn_with_its_type
    (event : Event) (file : File) data doc marginLeft y w :
  files event !! 0%nat = Some file →
  accepted file = true →
  data ≠ "" →
  hasImage (exec (reader_onload file data) (exec (handleImageUpload event) w))
    = (Normal true,
       exec (reader_onload file data) (exec (handleImageUpload event) w)) ∧
  result getImageType
      (exec (reader_onload file data) (exec (handleImageUpload event) w))
    = Normal (JsString (file_type file)) ∧
  paired (exec (reader_onload file data) (exec (handleImageUpload event) w)) ∧
  placements
      (log (exec (addImageToPDF doc marginLeft y)
              (exec (reader_onload file data)
                 (exec (handleImageUpload event) w))))
    = placements (log w)
        ++ [(JsString data, JsString (file_type file),
             marginLeft, y - 28, 70, 70)].
Proof.
  intros Hf Ha Hd.
  apply andb_true_iff in Ha as [Hp _].
  destruct (reader_onload_fields file data
              (exec (handleImageUpload event) w)) as [Ed Et].
  assert (Eset : image_set (exec (reader_onload file data)
                   (exec (handleImageUpload event) w)) = true).
  { unfold image_set. rewrite Ed. cbn. by destruct data. }
  split; [by rewrite hasImage_run, Eset|].
  split; [exact (f_equal Normal Et)|].
  split; [by apply (paired_iff _ _ _ Ed Et)|].
  rewrite (addImageToPDF_placements _ _ _ _ Eset).
  rewrite reader_onload_placements, handleImageUpload_placements.
  rewrite Ed, Et. unfold js_or. cbn [ToBoolean].
  pose proof (image_prefix_nonempty _ Hp).
  by destruct (file_type file).
Qed.

Lemma uploaded_image_is_drawn_with_its_type_witness :
  files (mkEvent [five_mebibyte_png]) !! 0%nat = Some five_mebibyte_png ∧
  accepted five_mebibyte_png = true ∧
  placements
      (log (exec (addImageToPDF steady_doc 10 100)
              (exec (reader_onload five_mebibyte_png "data:image/png;base64,AA==")
                 (exec (handleImageUpload (mkEvent [five_mebibyte_png]))
                    world_without_image))))
    = [(JsString "data:image/png;base64,AA==", JsString "image/png",
        10, 72, 70, 70)].
Proof.
  split; [reflexivity|]. split; [reflexivity|].
  apply (uploaded_image_is_drawn_with_its_type (mkEvent [five_mebibyte_png])
           five_mebibyte_png "data:image/png;base64,AA==" steady_doc 10 100
           world_without_image); [reflexivity | reflexivity | discriminate].
Defined.

(** ** Further properties of the preview and of removal *)

Lemma previewed_document fileName w p i n r :
  document w !! "image-preview" = Some p →
  document w !! "preview-img" = Some i →
  document w !! "image-name" = Some n →
  document w !! "remove-image" = Some r →
  document (previewed fileName w) =
    alter (remove_class "hidden") "remove-image"
      (alter (remove_class "hidden") "image-preview"
         (alter (with_textContent fileName) "image-name"
            (alter (with_src (profileImageData w)) "preview-img"
               (document w)))).
Proof.
  intros Hp Hi Hn Hr. unfold previewed, exists_in.
  by rewrite Hp, Hi, Hn, Hr.
Qed.

Lemma previewed_missing fileName w id :
  id ∈ ["image-preview"; "preview-img"; "image-name"; "remove-image"] →
  document w !! id = None →
  previewed fileName w = w.
Proof.
  intros Hid Hnone. unfold previewed, exists_in.
  repeat (apply elem_of_cons in Hid as [->|Hid]);
    [..|by apply elem_of_nil in Hid];
    rewrite Hnone; by rewrite ?andb_false_r.
Qed.

Lemma reader_onload_document file data w :
  document (exec (reader_onload file data) w) =
    document (previewed (file_name file)
      (mkWorld (JsString data) (JsString (file_type file)) (document w)
               (AutoUpdate_is_function w) (log w))).
Proof. unfold exec. by rewrite reader_onload_run. Qed.

Lemma preview_lookups_after_onload (file : File) data w p i n r :
  document w !! "image-preview" = Some p →
  document w !! "preview-img" = Some i →
  document w !! "image-name" = Some n →
  document w !! "remove-image" = Some r →
  document (exec (reader_onload file data) w) !! "preview-img"
    = Some (with_src (JsString data) i) ∧
  document (exec (reader_onload file data) w) !! "image-name"
    = Some (with_textContent (file_name file) n) ∧
  document (exec (reader_onload file data) w) !! "image-preview"
    = Some (remove_class "hidden" p) ∧
  document (exec (reader_onload file data) w) !! "remove-image"
    = Some (remove_class "hidden" r) ∧
  ("hidden" ∉ classList (remove_class "hidden" p)) ∧
  ("hidden" ∉ classList (remove_class "hidden" r)) ∧
  document (exec (reader_onload file data) w) !! "profile-image"
    = document w !! "profile-image".
Proof.
  intros Hp Hi Hn Hr.
  rewrite reader_onload_document.
  rewrite (previewed_document _ _ p i n r) by done. fields.
  repeat split.
  - do 3 (rewrite lookup_alter_ne by done).
    by rewrite lookup_alter_eq, Hi.
  - do 2 (rewrite lookup_alter_ne by done).
    rewrite lookup_alter_eq. rewrite lookup_alter_ne by done.
    by rewrite Hn.
  - rewrite lookup_alter_ne by done. rewrite lookup_alter_eq.
    do 2 (rewrite lookup_alter_ne by done). by rewrite Hp.
  - rewrite lookup_alter_eq. do 3 (rewrite lookup_alter_ne by done).
    by rewrite Hr.
  - cbn. rewrite elem_of_difference, elem_of_singleton. by intros [_ ?].
  - cbn. rewrite elem_of_difference, elem_of_singleton. by intros [_ ?].
  - by do 4 (rewrite lookup_alter_ne by done).
Qed.


(** X3: when the preview container, the preview image, the name label and
    the remove button all exist, the completion of an upload puts the data
    URL in the preview image's [src], the file's name in the label, takes
    the class [hidden] off the container and the button, and leaves the
    file input as it was. *)
Theorem reader_onload_shows_preview (file : File) data w p i n r :
  document w !! "image-preview" = Some p →
  document w !! "preview-img" = Some i →
  document w !! "image-name" = Some n →
  document w !! "remove-image" = Some r →
  document (exec (reader_onload file data) w) !! "preview-img"
    = Some (with_src (JsString data) i) ∧
  document (exec (reader_onload file data) w) !! "image-name"
    = Some (with_textContent (file_name file) n) ∧
  document (exec (reader_onload file data) w) !! "image-preview"
    = Some (remove_class "hidden" p) ∧
  document (exec (reader_onload file data) w) !! "remove-image"
    = Some (remove_class "hidden" r) ∧
  ("hidden" ∉ classList (remove_class "hidden" p)) ∧
  ("hidden" ∉ classList (remove_class "hidden" r)) ∧
  document (exec (reader_onload file data) w) !! "profile-image"
    = document w !! "profile-image".
Proof. apply preview_lookups_after_onload. Qed.

Lemma reader_onload_shows_preview_witness :
  document (exec (reader_onload five_mebibyte_png "data:image/png;base64,AA==")
              world_without_image) !! "preview-img"
    = Some (mkElement ∅ (JsString "data:image/png;base64,AA==") ""
                      "photo.png") ∧
  document (exec (reader_onload five_mebibyte_png "data:image/png;base64,AA==")
              world_without_image) !! "image-name"
    = Some (mkElement ∅ null "photo.png" "photo.png").
Proof.
  destruct (reader_onload_shows_preview five_mebibyte_png
              "data:image/png;base64,AA==" world_without_image
              sample_element sample_element sample_element sample_element)
    as (Hi & Hn & _); [reflexivity..|].
  split; [exact Hi | exact Hn].
Defined.

(** X4: the preview is updated as a whole or not at all: when any one of
    the four elements it needs is missing, [showImagePreview] changes
    nothing, and neither the completion of an upload nor
    [loadImageFromData] touches the document, though both still store the
    image. *)
Theorem showImagePreview_all_or_nothing fileName (file : File) data obj w id :
  id ∈ ["image-preview"; "preview-img"; "image-name"; "remove-image"] →
  document w !! id = None →
  showImagePreview fileName w = (Normal tt, w) ∧
  document (exec (reader_onload file data) w) = document w ∧
  profileImageData (exec (reader_onload file data) w) = JsString data ∧
  (ToBoolean (get_prop obj "profileImage") = true →
   document (exec (loadImageFromData obj) w) = document w ∧
   profileImageData (exec (loadImageFromData obj) w)
     = get_prop obj "profileImage").
Proof.
  intros Hid Hnone. split; [|split; [|split]].
  - by rewrite showImagePreview_run, (previewed_missing _ _ id).
  - rewrite reader_onload_document. by rewrite (previewed_missing _ _ id).
  - apply reader_onload_fields.
  - intros E. split; [|by apply loadImageFromData_fields].
    unfold exec. rewrite loadImageFromData_run, E. cbn [snd].
    by rewrite (previewed_missing _ _ id).
Qed.

Lemma showImagePreview_all_or_nothing_witness :
  ("image-name"
     ∈ ["image-preview"; "preview-img"; "image-name"; "remove-image"]) ∧
  delete "image-name" sample_document !! "image-name" = None ∧
  document (exec (loadImageFromData saved_png)
              (initial (delete "image-name" sample_document) true))
    = delete "image-name" sample_document ∧
  profileImageData (exec (loadImageFromData saved_png)
              (initial (delete "image-name" sample_document) true))
    = sample_png.
Proof.
  assert (Hid : "image-name" ∈
    ["image-preview"; "preview-img"; "image-name"; "remove-image"])
    by (rewrite !elem_of_cons; auto).
  assert (Hnone : delete "image-name" sample_document !! "image-name" = None)
    by apply lookup_delete_eq.
  split; [exact Hid|]. split; [exact Hnone|].
  destruct (showImagePreview_all_or_nothing "x" five_mebibyte_png "" saved_png
              (initial (delete "image-name" sample_document) true)
              "image-name" Hid Hnone) as (_ & _ & _ & Hload).
  apply Hload. reflexivity.
Defined.

Lemma removeProfileImage_lookup w :
  document (exec removeProfileImage w) !! "image-preview"
    = add_class "hidden" <$> document w !! "image-preview" ∧
  document (exec removeProfileImage w) !! "remove-image"
    = add_class "hidden" <$> document w !! "remove-image" ∧
  document (exec removeProfileImage w) !! "profile-image"
    = with_value "" <$> document w !! "profile-image" ∧
  ∀ id, id ∉ ["image-preview"; "remove-image"; "profile-image"] →
        document (exec removeProfileImage w) !! id = document w !! id.
Proof.
  unfold exec. rewrite removeProfileImage_run. fields. repeat split.
  - do 2 (rewrite lookup_alter_ne by done). by rewrite lookup_alter_eq.
  - rewrite lookup_alter_ne by done. rewrite lookup_alter_eq.
    by rewrite lookup_alter_ne.
  - rewrite lookup_alter_eq. by do 2 (rewrite lookup_alter_ne by done).
  - intros id Hid. rewrite !not_elem_of_cons in Hid.
    destruct Hid as (? & ? & ? & _).
    by do 3 (rewrite lookup_alter_ne by done).
Qed.

(** X5: [removeProfileImage] treats each control on its own: whichever of
    the preview container, the remove button and the file input exist, the
    first two get the class [hidden] and the last an empty value, whether
    or not the others are there; every other element, the preview image
    and the name label among them, is left exactly as it was. *)
Theorem removeProfileImage_document w :
  document (exec removeProfileImage w) !! "image-preview"
    = add_class "hidden" <$> document w !! "image-preview" ∧
  document (exec removeProfileImage w) !! "remove-image"
    = add_class "hidden" <$> document w !! "remove-image" ∧
  document (exec removeProfileImage w) !! "profile-image"
    = with_value "" <$> document w !! "profile-image" ∧
  document (exec removeProfileImage w) !! "preview-img"
    = document w !! "preview-img" ∧
  document (exec removeProfileImage w) !! "image-name"
    = document w !! "image-name" ∧
  ∀ id, id ∉ ["image-preview"; "remove-image"; "profile-image"] →
        document (exec removeProfileImage w) !! id = document w !! id.
Proof.
  destruct (removeProfileImage_lookup w) as (Hp & Hr & Hf & Hother).
  repeat split; try done.
  - apply Hother. rewrite !not_elem_of_cons. repeat split; try done.
    apply not_elem_of_nil.
  - apply Hother. rewrite !not_elem_of_cons. repeat split; try done.
    apply not_elem_of_nil.
Qed.

(** X6: removal hides the preview without emptying it: after an upload has
    completed on a page with all four preview elements and the image has
    been removed, [hasImage] answers [false] and the container is hidden,
    but the preview image still has the data URL as [src] and the label
    still has the file's name. *)
Theorem removal_keeps_preview_source (file : File) data w p i n r :
  document w !! "image-preview" = Some p →
  document w !! "preview-img" = Some i →
  document w !! "image-name" = Some n →
  document w !! "remove-image" = Some r →
  hasImage (exec removeProfileImage (exec (reader_onload file data) w))
    = (Normal false,
       exec removeProfileImage (exec (reader_onload file data) w)) ∧
  document (exec removeProfileImage (exec (reader_onload file data) w))
      !! "preview-img"
    = Some (with_src (JsString data) i) ∧
  document (exec removeProfileImage (exec (reader_onload file data) w))
      !! "image-name"
    = Some (with_textContent (file_name file) n) ∧
  document (exec removeProfileImage (exec (reader_onload file data) w))
      !! "image-preview"
    = Some (add_class "hidden" (remove_class "hidden" p)).
Proof.
  intros Hp Hi Hn Hr.
  destruct (preview_lookups_after_onload file data w p i n r
              Hp Hi Hn Hr) as (Ei & En & Ep & _).
  destruct (removeProfileImage_lookup (exec (reader_onload file data) w))
    as (Hp' & _ & _ & Hother).
  destruct (removeProfileImage_cleared (exec (reader_onload file data) w))
    as (Hd & _).
  split; [|split; [|split]].
  - rewrite hasImage_run. unfold image_set. by rewrite Hd.
  - rewrite Hother, Ei; [done|].
    rewrite !not_elem_of_cons. repeat split; try done.
    apply not_elem_of_nil.
  - rewrite Hother, En; [done|].
    rewrite !not_elem_of_cons. repeat split; try done.
    apply not_elem_of_nil.
  - by rewrite Hp', Ep.
Qed.

Lemma removal_keeps_preview_source_witness :
  image_set (exec removeProfileImage
               (exec (reader_onload five_mebibyte_png
                        "data:image/png;base64,AA==") world_without_image))
    = false ∧
  document (exec removeProfileImage
              (exec (reader_onload five_mebibyte_png
                       "data:image/png;base64,AA==") world_without_image))
      !! "preview-img"
    = Some (mkElement ∅ (JsString "data:image/png;base64,AA==") ""
                      "photo.png").
Proof.
  split; [reflexivity|].
  apply (removal_keeps_preview_source five_mebibyte_png
           "data:image/png;base64,AA==" world_without_image
           sample_element sample_element sample_element sample_element);
    reflexivity.
Defined.

Lemma removeProfileImage_log w :
  log (exec removeProfileImage w) =
    log w ++ (if AutoUpdate_is_function w then [CallAutoUpdate] else []).
Proof. unfold exec. by rewrite removeProfileImage_run. Qed.

Lemma loadImageFromData_log obj w :
  log (exec (loadImageFromData obj) w) =
    log w ++ (if ToBoolean (get_prop obj "profileImage") then []
              else if AutoUpdate_is_function w then [CallAutoUpdate]
              else []).
Proof.
  unfold exec. rewrite loadImageFromData_run.
  destruct (ToBoolean (get_prop obj "profileImage")).
  - cbn [snd]. rewrite app_nil_r.
    by destruct (previewed_fields "Loaded from save file"
      (mkWorld (get_prop obj "profileImage")
               (get_prop obj "profileImageType") (document w)
               (AutoUpdate_is_function w) (log w))) as (_ & _ & ->).
  - apply removeProfileImage_log.
Qed.

(** X7: the re-render hook. The completion of an upload and
    [removeProfileImage] each call [AutoUpdate] exactly once when it is a
    function and ask nothing else of the page's collaborators;
    [loadImageFromData] calls it only on its clearing branch: loading a
    saved image changes the stored image without any call of
    [AutoUpdate]. *)
Theorem AutoUpdate_calls (file : File) data obj w :
  log (exec (reader_onload file data) w)
    = log w ++ (if AutoUpdate_is_function w then [CallAutoUpdate] else []) ∧
  log (exec removeProfileImage w)
    = log w ++ (if AutoUpdate_is_function w then [CallAutoUpdate] else []) ∧
  log (exec (loadImageFromData obj) w)
    = log w ++ (if ToBoolean (get_prop obj "profileImage") then []
                else if AutoUpdate_is_function w then [CallAutoUpdate]
                else []).
Proof.
  split; [apply reader_onload_log|].
  split; [apply removeProfileImage_log | apply loadImageFromData_log].
Qed.

(** ** Further properties of loading, saving and layout *)

(** X9: [loadImageFromData] checks nothing but truthiness: whatever truthy
    value the saved object has as [profileImage] (not only a data URL) is
    stored with whatever it has as [profileImageType] (not only an image
    type), and [addImageToPDF] then hands exactly that value to the
    renderer, with that type or ["JPEG"] as format. *)
Theorem loaded_value_is_drawn_unchecked obj doc marginLeft y w :
  ToBoolean (get_prop obj "profileImage") = true →
  hasImage (exec (loadImageFromData obj) w)
    = (Normal true, exec (loadImageFromData obj) w) ∧
  result (addImageToPDF doc marginLeft y) (exec (loadImageFromData obj) w)
    = Normal (mkImageInfo 70 70 true) ∧
  placements
      (log (exec (addImageToPDF doc marginLeft y)
              (exec (loadImageFromData obj) w)))
    = placements (log w)
        ++ [(get_prop obj "profileImage",
             js_or (get_prop obj "profileImageType") (JsString "JPEG"),
             marginLeft, y - 28, 70, 70)].
Proof.
  intros E.
  destruct (loadImageFromData_fields obj w E) as (_ & Hd & Ht).
  assert (Eset : image_set (exec (loadImageFromData obj) w) = true).
  { unfold image_set. by rewrite Hd. }
  split; [by rewrite hasImage_run, Eset|]. split.
  - unfold result. rewrite addImageToPDF_run.
    fold (image_set (exec (loadImageFromData obj) w)). by rewrite Eset.
  - rewrite (addImageToPDF_placements _ _ _ _ Eset), Hd, Ht.
    by rewrite loadImageFromData_log, E, app_nil_r.
Qed.

Lemma loaded_value_is_drawn_unchecked_witness :
  ToBoolean (get_prop saved_number "profileImage") = true ∧
  placements
      (log (exec (addImageToPDF steady_doc 10 100)
              (exec (loadImageFromData saved_number) world_without_image)))
    = [(JsNumber 42, JsString "text/plain", 10, 72, 70, 70)].
Proof.
  split; [reflexivity|].
  apply (loaded_value_is_drawn_unchecked saved_number steady_doc 10 100
           world_without_image).
  reflexivity.
Defined.

Lemma world_eta w :
  mkWorld (profileImageData w) (profileImageType w) (document w)
          (AutoUpdate_is_function w) (log w) = w.
Proof. by destruct w. Qed.

(** X10: saving and loading back, from any state. [getImageData] returns
    an object with both keys and changes nothing. Loading that object
    when an image is set only refreshes the preview (fields, hook and log
    stay as they are); when no image is set it is a full
    [removeProfileImage], so that a media type or falsy data left in the
    fields does not survive the round trip. *)
Theorem load_export_any_state w :
  ∃ saved,
    getImageData w = (Normal saved, w) ∧
    saved !! "profileImage" = Some (profileImageData w) ∧
    saved !! "profileImageType" = Some (profileImageType w) ∧
    loadImageFromData saved w =
      if image_set w
      then (Normal tt, previewed "Loaded from save file" w)
      else removeProfileImage w.
Proof.
  eexists. split; [apply getImageData_run|].
  split; [by rewrite lookup_insert_eq|].
  split; [rewrite lookup_insert_ne by done; by rewrite lookup_insert_eq|].
  rewrite loadImageFromData_run.
  destruct (get_prop_saved (profileImageData w) (profileImageType w))
    as [-> ->].
  unfold image_set. by rewrite world_eta.
Qed.

(** X11: the layout position against the drawing, for whole-number
    coordinates. When an image is set, the header position and the padding
    are integers of magnitude at most 2^51 (so that every intermediate
    value is an integer that JavaScript's numbers carry exactly), and the
    caller passes the same header position to both functions and the
    returned height on, [getImageBottomPosition] returns the bottom edge
    of the square that [addImageToPDF] drew (its top [y - 28] plus its
    height) plus the padding minus 2: the two functions offset the header
    position by 28 and by 30. *)
Theorem bottom_position_of_drawn_image doc marginLeft y padding w :
  image_set w = true →
  Z.abs y ≤ 2 ^ 51 →
  Z.abs padding ≤ 2 ^ 51 →
  ∃ info format,
    result (addImageToPDF doc marginLeft y) w = Normal info ∧
    placements (log (exec (addImageToPDF doc marginLeft y) w))
      = placements (log w)
          ++ [(profileImageData w, format, marginLeft, y - 28,
               width info, height info)] ∧
    result (getImageBottomPosition y (height info) padding)
           (exec (addImageToPDF doc marginLeft y) w)
      = Normal ((y - 28 + height info) + padding - 2) ∧
    Z.abs ((y - 30) + height info + padding) < 2 ^ 53 ∧
    Z.abs ((y - 28 + height info) + padding - 2) < 2 ^ 53.
Proof.
  intros E Hy Hp.
  exists (mkImageInfo 70 70 true),
         (js_or (profileImageType w) (JsString "JPEG")).
  split; [|split; [|split]].
  - unfold result. rewrite addImageToPDF_run. fold (image_set w).
    by rewrite E.
  - by rewrite (addImageToPDF_placements _ _ _ _ E).
  - unfold result. rewrite getImageBottomPosition_run. cbn [fst height].
    destruct (addImageToPDF_same_image doc marginLeft y w) as [-> _].
    fold (image_set w). rewrite E. f_equal. lia.
  - cbn [height]. lia.
Qed.

Lemma bottom_position_of_drawn_image_witness :
  image_set world_with_image = true ∧
  Z.abs 100 ≤ 2 ^ 51 ∧
  Z.abs 5 ≤ 2 ^ 51 ∧
  result (getImageBottomPosition 100 70 5)
         (exec (addImageToPDF steady_doc 10 100) world_with_image)
    = Normal 145.
Proof.
  split; [reflexivity|]. split; [lia|]. split; [lia|].
  destruct (bottom_position_of_drawn_image steady_doc 10 100 5
              world_with_image eq_refl ltac:(lia) ltac:(lia))
    as (info & format & Hr & _ & Hb & _).
  injection Hr as <-. exact Hb.
Defined.

(** ** An invariant of the runs *)

Lemma data_url_truthy data :
  String.prefix "data:" data = true → ToBoolean (JsString data) = true.
Proof. by destruct data. Qed.

Lemma addImageToPDF_log_reads doc marginLeft y w file :
  ReadAsDataURL file ∈ log (exec (addImageToPDF doc marginLeft y) w) →
  ReadAsDataURL file ∈ log w.
Proof.
  unfold exec. rewrite addImageToPDF_run.
  destruct (ToBoolean (profileImageData w)); [|done].
  cbn [snd logged log]. rewrite elem_of_app, elem_of_cons.
  intros [?|[?|H]]; [done|done|].
  destruct (addImage_throws _ _ _ _ _ _ _); [|by apply elem_of_nil in H].
  apply elem_of_cons in H as [?|H]; [done|by apply elem_of_nil in H].
Qed.

Lemma hook_log_reads (b : bool) (l : list Effect) file :
  ReadAsDataURL file ∈ l ++ (if b then [CallAutoUpdate] else []) →
  ReadAsDataURL file ∈ l.
Proof.
  rewrite elem_of_app. intros [?|H]; [done|].
  destruct b; [|by apply elem_of_nil in H].
  apply elem_of_cons in H as [?|H]; [done|by apply elem_of_nil in H].
Qed.

Lemma handleImageUpload_log_reads event w file :
  ReadAsDataURL file ∈ log (exec (handleImageUpload event) w) →
  ReadAsDataURL file ∈ log w ∨ accepted file = true.
Proof.
  unfold exec, accepted. rewrite handleImageUpload_run. cbn [snd].
  destruct (files event !! 0%nat) as [f|]; [|by left].
  destruct (String.prefix "image/" (file_type f)) eqn:Ep;
    [destruct (file_size f <=? 5 * 1024 * 1024)%Z eqn:Es|];
    cbn [logged log]; rewrite elem_of_app, elem_of_cons, elem_of_nil;
    intros [?|[?|[]]]; try by left.
  simplify_eq. right. by rewrite Ep, Es.
Qed.

(** X12: in every state a page can reach from the freshly loaded module
    (by calls of the module's functions, completions of reads that
    [handleImageUpload] started, and changes of its own to the document
    and to [AutoUpdate]), either an image is set or both fields are
    [null]: the data is never [undefined], never an empty string, and a
    media type is never kept without data. Moreover every read ever
    started was of a file with an [image/] type and of at most
    5 * 1024 * 1024 bytes. *)
Theorem reachable_invariant w :
  reachable w →
  ((profileImageData w = null ∧ profileImageType w = null) ∨
   image_set w = true) ∧
  (∀ file, ReadAsDataURL file ∈ log w → accepted file = true).
Proof.
  induction 1 as [d hook | w w' _ [IHf IHl] Hstep].
  - split; [by left|]. intros file H. by apply elem_of_nil in H.
  - destruct Hstep.
    + split.
      * destruct (handleImageUpload_same_image event w) as (_ & Hd & Ht).
        unfold image_set. by rewrite Hd, Ht.
      * intros f Hf.
        apply handleImageUpload_log_reads in Hf as [?|?]; auto.
    + split.
      * right. unfold image_set.
        destruct (reader_onload_fields file data w) as [-> _].
        by apply data_url_truthy.
      * intros f Hf. rewrite reader_onload_log in Hf.
        apply hook_log_reads in Hf. auto.
    + split.
      * left. by destruct (removeProfileImage_cleared w) as (? & ? & _).
      * intros f Hf. rewrite removeProfileImage_log in Hf.
        apply hook_log_reads in Hf. auto.
    + split.
      * destruct (addImageToPDF_same_image doc marginLeft y w) as [Hd Ht].
        unfold image_set. by rewrite Hd, Ht.
      * intros f Hf. apply addImageToPDF_log_reads in Hf. auto.
    + unfold exec. by rewrite getImageBottomPosition_run.
    + split.
      * destruct (ToBoolean (get_prop obj "profileImage")) eqn:E.
        -- right. unfold image_set.
           destruct (loadImageFromData_fields obj w E) as (_ & -> & _).
           exact E.
        -- left. unfold exec. rewrite (loadImageFromData_falsy obj w E).
           by destruct (removeProfileImage_cleared w) as (? & ? & _).
      * intros f Hf. rewrite loadImageFromData_log in Hf.
        destruct (ToBoolean (get_prop obj "profileImage")).
        -- rewrite app_nil_r in Hf. auto.
        -- apply hook_log_reads in Hf. auto.
    + done.
    + done.
    + done.
    + done.
    + done.
Qed.

Lemma reachable_invariant_witness :
  reachable
    (exec (reader_onload five_mebibyte_png "data:image/png;base64,AA==")
       (exec (handleImageUpload (mkEvent [five_mebibyte_png]))
          world_without_image)) ∧
  image_set
    (exec (reader_onload five_mebibyte_png "data:image/png;base64,AA==")
       (exec (handleImageUpload (mkEvent [five_mebibyte_png]))
          world_without_image)) = true ∧
  accepted five_mebibyte_png = true.
Proof.
  assert (R : reachable
    (exec (reader_onload five_mebibyte_png "data:image/png;base64,AA==")
       (exec (handleImageUpload (mkEvent [five_mebibyte_png]))
          world_without_image))).
  { eapply reachable_step; [eapply reachable_step|].
    - apply (reachable_initial sample_document true).
    - apply (step_handleImageUpload (mkEvent [five_mebibyte_png])).
    - apply step_reader_onload; [|reflexivity].
      change (ReadAsDataURL five_mebibyte_png
                ∈ [ReadAsDataURL five_mebibyte_png]).
      apply elem_of_cons. by left. }
  split; [exact R|].
  destruct (reachable_invariant _ R) as [_ Hreads].
  split; [reflexivity|].
  apply Hreads.
  change (ReadAsDataURL five_mebibyte_png
            ∈ [ReadAsDataURL five_mebibyte_png; CallAutoUpdate]).
  apply elem_of_cons. by left.
Defined.

(** ** Wiring *)


Lemma initializeImageHandler_run ls w :
  initializeImageHandler ls w =
    (Normal
       (let ls1 := if exists_in (document w) "profile-image"
                   then addEventListener "profile-image" "change"
                          HandleImageUpload ls
                   else ls in
        if exists_in (document w) "remove-image"
        then addEventListener "remove-image" "click" RemoveProfileImage ls1
        else ls1), w).
Proof.
  unfold initializeImageHandler, exists_in. js_unfold.
  by destruct (document w !! "profile-image"),
              (document w !! "remove-image").
Qed.


Lemma addEventListener_other r r' t l ls :
  r ≠ r' → addEventListener r t l ls !! r' = ls !! r'.
Proof.
  intros Hne. unfold addEventListener. case_bool_decide; [done|].
  by rewrite lookup_insert_ne.
Qed.





Lemma addEventListener_registered r t l ls :
  (t, l) ∈ default [] (addEventListener r t l ls !! r).
Proof.
  unfold addEventListener. case_bool_decide as H; [done|].
  rewrite lookup_insert_eq. cbn [default]. apply elem_of_app. right.
  apply elem_of_cons. by left.
Qed.

Lemma addEventListener_absorb r t l ls :
  (t, l) ∈ default [] (ls !! r) → addEventListener r t l ls = ls.
Proof.
  intros H. unfold addEventListener. by rewrite bool_decide_eq_true_2.
Qed.

(** X14: initialising twice is initialising once: the module registers
    its two named functions, which the document does not register a second
    time, so that a second [initializeImageHandler] leaves the listeners
    as the first one made them, whatever listeners were there before. *)
Theorem initializeImageHandler_idempotent ls w :
  ∃ ls',
    initializeImageHandler ls w = (Normal ls', w) ∧
    initializeImageHandler ls' w = (Normal ls', w).
Proof.
  eexists. split; [apply initializeImageHandler_run|].
  rewrite initializeImageHandler_run. f_equal. f_equal.
  destruct (exists_in (document w) "profile-image"),
           (exists_in (document w) "remove-image"); cbn zeta; try done.
  - rewrite (addEventListener_absorb "profile-image").
    + apply addEventListener_absorb, addEventListener_registered.
    + rewrite addEventListener_other by done.
      apply addEventListener_registered.
  - apply addEventListener_absorb, addEventListener_registered.
  - apply addEventListener_absorb, addEventListener_registered.
Qed.
